(** * Personal-Finance-Tracker: the [CSV] store of [main.py]

    A shallow embedding of the transaction store of [main.py]
    ([CSV.initialize_csv], [CSV.add_entry], [CSV.update_entry],
    [CSV.delete_entry], [CSV.get_transactions]) and of the daily series
    computed by [plot_transaction].

    Modelling choices.
    - The backing file [finance_data.csv] is [option (list (list string))]:
      [None] when the file does not exist, otherwise its CSV records (the
      fields of each line, the header first).  The CSV quoting layer
      ([csv.DictWriter], [DataFrame.to_csv] and the reader of [pd.read_csv]
      all use standard quoting) is taken as exchanging these field strings
      unchanged.
    - A pandas cell is a [Value]: text, a number, NaN/NaT, or a timestamp
      (a calendar date at midnight).  Amounts are modelled as integers
      (exact arithmetic; the source's floating point is outside the model):
      the reader turns a column into numbers when every non-missing cell is
      an integer text.  pandas also infers float and boolean columns; those
      inferences are not modelled, and the theorems that depend on column
      types exclude such texts by hypothesis.
    - Python exceptions are the [Fault]s of a result type; what the code
      prints is the [Outcome] an operation returns.  The operations run in a
      small state and error monad over the file. *)

From Stdlib Require Import ZArith List String Ascii Bool Lia.
From Stdlib Require Import DecimalString DecimalZ.
Import ListNotations.
Open Scope list_scope.
Open Scope string_scope.
Open Scope Z_scope.

(** ** Exceptions, results and the store monad *)

Inductive Fault :=
| FileNotFoundError   (** [open]/[read_csv] of a missing file *)
| EmptyDataError      (** [read_csv] of a file with no columns (no header) *)
| ParserError         (** [read_csv]: a record with too many fields *)
| KeyError            (** a column that the frame does not have *)
| ValueError          (** [strptime]/[to_datetime] of a non-matching text *)
| TypeError.          (** [sum] over a text cell *)

Inductive Result (A : Type) :=
| Ok (a : A)
| Err (e : Fault).
Arguments Ok {A} a.
Arguments Err {A} e.

Definition File := option (list (list string)).

(** A store operation: reads and rewrites the file, may raise. *)
Definition M (A : Type) := File -> Result (A * File).

Definition ret {A} (a : A) : M A := fun f => Ok (a, f).
Definition raise {A} (e : Fault) : M A := fun _ => Err e.
Definition bind {A B} (m : M A) (k : A -> M B) : M B :=
  fun f => match m f with
           | Ok (a, f') => k a f'
           | Err e => Err e
           end.
Definition lift {A} (r : Result A) : M A :=
  fun f => match r with Ok a => Ok (a, f) | Err e => Err e end.

Notation "x <- m ;; k" := (bind m (fun x => k))
  (at level 61, m at next level, right associativity).
Notation "m ;;; k" := (bind m (fun _ => k))
  (at level 61, right associativity).

(** [try: m except FileNotFoundError: h] *)
Definition try_fnf {A} (m : M A) (h : M A) : M A :=
  fun f => match m f with
           | Err FileNotFoundError => h f
           | r => r
           end.

(** ** Decimal text of integers *)

(** [str(z)] for a Python int. *)
Definition str_int (z : Z) : string := NilZero.string_of_int (Z.to_int z).

(** pandas' integer parser: an optional sign, then decimal digits. *)
Definition parse_int (s : string) : option Z :=
  match s with
  | String c s' =>
      if Ascii.eqb c "+" then option_map (fun u => Z.of_int (Decimal.Pos u))
                                         (NilZero.uint_of_string s')
      else option_map Z.of_int (NilZero.int_of_string s)
  | EmptyString => None
  end.

(** ** pandas cells and frames *)

Record Date := mkDate { year : Z; month : Z; day : Z }.

Inductive Value :=
| VStr (s : string)
| VNum (z : Z)
| VNaN                 (** NaN, or NaT in a datetime column *)
| VTime (d : Date).    (** a [Timestamp] at midnight *)

Record Frame := mkFrame { columns : list string; data : list (list Value) }.

Definition COLUMNS : list string := ["date"; "amount"; "category"; "description"].

(** pandas' default missing-value markers ([na_values]). *)
Definition NA_TOKENS : list string :=
  [""; "#N/A"; "#N/A N/A"; "#NA"; "-1.#IND"; "-1.#QNAN"; "-NaN"; "-nan";
   "1.#IND"; "1.#QNAN"; "<NA>"; "N/A"; "NA"; "NULL"; "NaN"; "None";
   "n/a"; "nan"; "null"].

Definition is_na (s : string) : bool := existsb (String.eqb s) NA_TOKENS.

Definition is_int_text (s : string) : bool :=
  match parse_int s with Some _ => true | None => false end.

Definition field (k : nat) (r : list string) : string := nth k r "".

(** A column is numeric when every non-missing cell is an integer text. *)
Definition numeric_col (recs : list (list string)) (k : nat) : bool :=
  forallb (fun r => is_na (field k r) || is_int_text (field k r)) recs.

Definition convert_cell (num : bool) (s : string) : Value :=
  if is_na s then VNaN
  else if num then match parse_int s with Some z => VNum z | None => VStr s end
  else VStr s.

(** Short records are padded with missing cells. *)
Definition convert_row (ncols : nat) (recs : list (list string)) (r : list string)
  : list Value :=
  map (fun k => convert_cell (numeric_col recs k) (field k r)) (seq 0 ncols).

(** [pd.read_csv(CSV_FILE)] *)
Definition read_csv (f : File) : Result Frame :=
  match f with
  | None => Err FileNotFoundError
  | Some [] | Some ([] :: _) => Err EmptyDataError
  | Some (hdr :: recs) =>
      if existsb (fun r => Nat.ltb (List.length hdr) (List.length r)) recs then Err ParserError
      else Ok (mkFrame hdr (map (convert_row (List.length hdr) recs) recs))
  end.

(** Column lookup by name ([df["name"]]): the first column of that name. *)
Fixpoint col_index (name : string) (cols : list string) : option nat :=
  match cols with
  | [] => None
  | c :: cs => if String.eqb c name then Some O
               else option_map S (col_index name cs)
  end.

Definition cell (k : nat) (r : list Value) : Value := nth k r VNaN.

Fixpoint update_nth {A} (n : nat) (g : A -> A) (l : list A) : list A :=
  match l, n with
  | [], _ => []
  | x :: xs, O => g x :: xs
  | x :: xs, S n' => x :: update_nth n' g xs
  end.

(** Rows with their [RangeIndex] labels. *)
Definition enumerate {A} (l : list A) : list (nat * A) :=
  combine (seq 0 (List.length l)) l.

(** ** Dates: [datetime.strptime(s, "%d-%m-%Y")] *)

Definition digit (c : ascii) : option Z :=
  let n := nat_of_ascii c in
  if (Nat.leb 48 n && Nat.leb n 57)%bool then Some (Z.of_nat n - 48) else None.

Definition dchar (z : Z) : ascii := ascii_of_nat (Z.to_nat (48 + z)).

Fixpoint split_on (sep : ascii) (s : string) : list string :=
  match s with
  | EmptyString => [EmptyString]
  | String c s' =>
      if Ascii.eqb c sep then EmptyString :: split_on sep s'
      else match split_on sep s' with
           | w :: ws => String c w :: ws
           | [] => [String c EmptyString]
           end
  end.

Definition pos_digit (c : ascii) : option Z :=
  match digit c with Some v => if 1 <=? v then Some v else None | None => None end.

Definition two_digits (c1 c2 : ascii) (hi : Z) : option Z :=
  match digit c1, digit c2 with
  | Some a, Some b => if (1 <=? 10 * a + b) && (10 * a + b <=? hi) then Some (10 * a + b)
                      else None
  | _, _ => None
  end.

(** [%d]: [3[01]|[12]\d|0[1-9]|[1-9]| [1-9]] *)
Definition parse_day (t : string) : option Z :=
  match t with
  | String c1 (String c2 EmptyString) =>
      if Ascii.eqb c1 " " then pos_digit c2 else two_digits c1 c2 31
  | String c EmptyString => pos_digit c
  | _ => None
  end.

(** [%m]: [1[0-2]|0[1-9]|[1-9]] *)
Definition parse_month (t : string) : option Z :=
  match t with
  | String c1 (String c2 EmptyString) => two_digits c1 c2 12
  | String c EmptyString => pos_digit c
  | _ => None
  end.

(** [%Y]: [\d\d\d\d] *)
Definition parse_year (t : string) : option Z :=
  match t with
  | String c1 (String c2 (String c3 (String c4 EmptyString))) =>
      match digit c1, digit c2, digit c3, digit c4 with
      | Some a, Some b, Some c, Some d => Some (1000 * a + 100 * b + 10 * c + d)
      | _, _, _, _ => None
      end
  | _ => None
  end.

Definition leap (y : Z) : bool :=
  (y mod 4 =? 0) && (negb (y mod 100 =? 0) || (y mod 400 =? 0)).

Definition days_in_month (y m : Z) : Z :=
  if m =? 2 then (if leap y then 29 else 28)
  else if (m =? 4) || (m =? 6) || (m =? 9) || (m =? 11) then 30
  else if (1 <=? m) && (m <=? 12) then 31 else 0.

(** The checks of the [date] constructor. *)
Definition valid_date (d : Date) : bool :=
  (1 <=? year d) && (year d <=? 9999) && (1 <=? month d) && (month d <=? 12)
  && (1 <=? day d) && (day d <=? days_in_month (year d) (month d)).

(** The separators are literal ['-'], which none of the fields' patterns
    matches, so matching the pattern is splitting at ['-']. *)
Definition strptime (s : string) : option Date :=
  match split_on "-" s with
  | [ds; ms; ys] =>
      match parse_day ds, parse_month ms, parse_year ys with
      | Some d, Some m, Some y =>
          let dt := mkDate y m d in if valid_date dt then Some dt else None
      | _, _, _ => None
      end
  | _ => None
  end.

Definition two (z : Z) : string :=
  String (dchar (z / 10)) (String (dchar (z mod 10)) EmptyString).
Definition four (z : Z) : string :=
  String (dchar (z / 1000)) (String (dchar (z / 100 mod 10))
    (String (dchar (z / 10 mod 10)) (String (dchar (z mod 10)) EmptyString))).

(** The canonical text [DD-MM-YYYY] of [FORMAT = "%d-%m-%Y"]. *)
Definition fmt_date (d : Date) : string :=
  two (day d) ++ "-" ++ two (month d) ++ "-" ++ four (year d).

(** [to_csv] of a timestamp: [YYYY-MM-DD]. *)
Definition iso_date (d : Date) : string :=
  four (year d) ++ "-" ++ two (month d) ++ "-" ++ two (day d).

(** Comparison of [datetime] values: lexicographic on (year, month, day). *)
Definition date_le (a b : Date) : bool :=
  (year a <? year b)
  || ((year a =? year b)
      && ((month a <? month b) || ((month a =? month b) && (day a <=? day b)))).

Definition date_eqb (a b : Date) : bool :=
  (year a =? year b) && (month a =? month b) && (day a =? day b).

(** Day numbers, the day bins of [resample("D")]: days before the year,
    days before the month, then the day. *)
Definition year_len (y : Z) : Z := if leap y then 366 else 365.

Fixpoint days_before_year_nat (n : nat) : Z :=
  match n with
  | O => 0
  | S k => days_before_year_nat k + year_len (Z.of_nat n)
  end.

Fixpoint days_before_month_nat (y : Z) (n : nat) : Z :=
  match n with
  | O => 0
  | S k => days_before_month_nat y k + days_in_month y (Z.of_nat n)
  end.

Definition day_number (d : Date) : Z :=
  days_before_year_nat (Z.to_nat (year d - 1))
  + days_before_month_nat (year d) (Z.to_nat (month d - 1)) + day d.

(** ** Writing the file *)

Definition render (v : Value) : string :=
  match v with
  | VStr s => s
  | VNum z => str_int z
  | VNaN => ""
  | VTime d => iso_date d
  end.

(** [df.to_csv(CSV_FILE, index=False)]: header, then one record per row. *)
Definition to_csv (fr : Frame) : list (list string) :=
  columns fr :: map (map render) (data fr).

Definition write_csv (fr : Frame) : M unit := fun _ => Ok (tt, Some (to_csv fr)).

(** [pd.read_csv(CSV_FILE)] as a store step: the file is left as it is. *)
Definition read_m : M Frame := fun f => lift (read_csv f) f.

Definition rbind {A B} (r : Result A) (k : A -> Result B) : Result B :=
  match r with Ok a => k a | Err e => Err e end.
Notation "'let*' x ':=' r 'in' k" := (rbind r (fun x => k))
  (at level 200, x name, r at level 100, k at level 200).

Definition need_col (name : string) (cols : list string) : Result nat :=
  match col_index name cols with Some k => Ok k | None => Err KeyError end.

(** ** [CSV.initialize_csv] *)

Definition initialize_csv : M unit :=
  try_fnf (read_m ;;; ret tt)
          (write_csv (mkFrame COLUMNS [])).

(** ** [CSV.add_entry]: [csv.DictWriter] appends one record; opening in
    mode ["a"] creates a missing file (with no header). *)

Inductive Outcome :=
| EntryAdded | EntryUpdated | InvalidIndexUpdate
| EntryDeleted | NoDataToDelete | InvalidIndexDelete.

Definition entry_record (date : string) (amount : Z) (category description : string)
  : list string := [date; str_int amount; category; description].

Definition add_entry (date : string) (amount : Z) (category description : string)
  : M Outcome :=
  fun f =>
    let rec := entry_record date amount category description in
    Ok (EntryAdded, Some (match f with
                          | None => [rec]
                          | Some rs => (rs ++ [rec])%list
                          end)).

(** ** [CSV.update_entry] *)

(** [df.at[i, name] = v]; a missing column is added, NaN elsewhere. *)
Definition set_at (i : nat) (name : string) (v : Value) (fr : Frame) : Frame :=
  match col_index name (columns fr) with
  | Some k => mkFrame (columns fr) (update_nth i (update_nth k (fun _ => v)) (data fr))
  | None =>
      mkFrame (columns fr ++ [name])%list
              (map (fun '(j, r) => (r ++ [if Nat.eqb j i then v else VNaN])%list)
                   (enumerate (data fr)))
  end.

Definition index_ok (index : Z) (fr : Frame) : bool :=
  (0 <=? index) && (index <? Z.of_nat (List.length (data fr))).

Definition update_entry (index : Z) (date : string) (amount : Z)
  (category description : string) : M Outcome :=
  df <- read_m ;;
  if index_ok index df then
    let i := Z.to_nat index in
    let df := set_at i "date" (VStr date) df in
    let df := set_at i "amount" (VNum amount) df in
    let df := set_at i "category" (VStr category) df in
    let df := set_at i "description" (VStr description) df in
    write_csv df ;;; ret EntryUpdated
  else ret InvalidIndexUpdate.

(** ** [CSV.delete_entry] *)

Definition frame_empty (fr : Frame) : bool :=
  match columns fr, data fr with
  | [], _ | _, [] => true
  | _, _ => false
  end.

(** [df.drop(index).reset_index(drop=True)]: drop the row labelled [index],
    renumber the rest from 0. *)
Definition drop_reset (index : Z) (rows : list (list Value)) : list (list Value) :=
  map snd (filter (fun '(k, _) => negb (Z.of_nat k =? index)) (enumerate rows)).

Definition delete_entry (index : Z) : M Outcome :=
  try_fnf
    (df <- read_m ;;
     if frame_empty df then ret NoDataToDelete
     else if index_ok index df then
       write_csv (mkFrame (columns df) (drop_reset index (data df))) ;;;
       ret EntryDeleted
     else ret InvalidIndexDelete)
    (ret NoDataToDelete).

(** ** [CSV.get_transactions] *)

Fixpoint map_res {A B} (g : A -> Result B) (l : list A) : Result (list B) :=
  match l with
  | [] => Ok []
  | x :: xs => let* y := g x in let* ys := map_res g xs in Ok (y :: ys)
  end.

Definition strptime_r (s : string) : Result Date :=
  match strptime s with Some d => Ok d | None => Err ValueError end.

(** [pd.to_datetime(v, format=FORMAT)] of one cell. *)
Definition to_datetime (v : Value) : Result Value :=
  match v with
  | VStr s => let* d := strptime_r s in Ok (VTime d)
  | VNaN => Ok VNaN
  | VTime d => Ok (VTime d)
  | VNum _ => Err ValueError
  end.

(** [df["date"] = pd.to_datetime(df["date"], format=CSV.FORMAT)] *)
Definition to_datetime_col (k : nat) (rows : list (list Value))
  : Result (list (list Value)) :=
  map_res (fun r => let* v := to_datetime (cell k r) in Ok (update_nth k (fun _ => v) r))
          rows.

(** [(df["date"] >= start_date) & (df["date"] <= end_date)]; NaT fails both. *)
Definition in_range (sd ed : Date) (v : Value) : bool :=
  match v with
  | VTime d => date_le sd d && date_le d ed
  | _ => false
  end.

(** A filtered frame keeps the labels of its rows. *)
Record LFrame := mkLFrame { lcolumns : list string; lrows : list (nat * list Value) }.

Definition is_category (c : string) (v : Value) : bool :=
  match v with VStr s => String.eqb s c | _ => false end.

(** [Series.sum()]: NaN is skipped; a text cell is not summed here. *)
Fixpoint sum_col (k : nat) (rows : list (nat * list Value)) : Result Z :=
  match rows with
  | [] => Ok 0
  | (_, r) :: rs =>
      let* s := sum_col k rs in
      match cell k r with
      | VNum z => Ok (z + s)
      | VNaN => Ok s
      | _ => Err TypeError
      end
  end.

(** [filtered_df[filtered_df["category"] == c]] *)
Definition rows_of_category (kc : nat) (c : string) (rows : list (nat * list Value))
  : list (nat * list Value) :=
  filter (fun '(_, r) => is_category c (cell kc r)) rows.

(** Lines 89-96: total income, total expense and net saving. *)
Definition summarize (cols : list string) (rows : list (nat * list Value))
  : Result (Z * Z * Z) :=
  let* kc := need_col "category" cols in
  let* ka := need_col "amount" cols in
  let* total_income := sum_col ka (rows_of_category kc "Income" rows) in
  let* total_expense := sum_col ka (rows_of_category kc "Expense" rows) in
  Ok (total_income, total_expense, total_income - total_expense).

Inductive Report :=
| NoTransactionFound
| Summary (total_income total_expense net_saving : Z).

Definition get_transactions (start_date end_date : string) : M (LFrame * Report) :=
  df <- read_m ;;
  kd <- lift (need_col "date" (columns df)) ;;
  rows <- lift (to_datetime_col kd (data df)) ;;
  sd <- lift (strptime_r start_date) ;;
  ed <- lift (strptime_r end_date) ;;
  let filtered := filter (fun '(_, r) => in_range sd ed (cell kd r)) (enumerate rows) in
  match filtered with
  | [] => ret (mkLFrame (columns df) filtered, NoTransactionFound)
  | _ :: _ =>
      totals <- lift (summarize (columns df) filtered) ;;
      let '(inc, exp, net) := totals in
      ret (mkLFrame (columns df) filtered, Summary inc exp net)
  end.

(** ** [plot_transaction]: the two daily series handed to the chart *)

Definition zrange (lo : Z) (n : nat) : list Z :=
  map (fun j => lo + Z.of_nat j) (seq 0 n).

Definition row_day (kd : nat) (r : list Value) : option Z :=
  match cell kd r with VTime d => Some (day_number d) | _ => None end.

(** [.resample("D").sum()] of the amounts: one bin per day from the first
    to the last day present, each the sum of that day's amounts. *)
Definition resample_sum (kd ka : nat) (rows : list (nat * list Value))
  : Result (list (Z * Z)) :=
  match flat_map (fun '(_, r) => match row_day kd r with Some n => [n] | None => [] end)
                 rows with
  | [] => Ok []
  | n :: ns =>
      let lo := fold_left Z.min ns n in
      let hi := fold_left Z.max ns n in
      map_res (fun k =>
                 let* s := sum_col ka (filter (fun '(_, r) =>
                             match row_day kd r with Some n => n =? k | None => false end)
                           rows) in
                 Ok (k, s))
              (zrange lo (Z.to_nat (hi - lo + 1)))
  end.

Fixpoint lookup_bin (k : Z) (bins : list (Z * Z)) : option Z :=
  match bins with
  | [] => None
  | (k', s) :: bs => if k' =? k then Some s else lookup_bin k bs
  end.

(** [.reindex(df.index, fill_value=0)] *)
Definition reindex (bins : list (Z * Z)) (index : list Value) : list Z :=
  map (fun v => match v with
                | VTime d => match lookup_bin (day_number d) bins with
                             | Some s => s | None => 0 end
                | _ => 0
                end) index.

Definition category_series (kd kc ka : nat) (c : string) (fr : LFrame) : Result (list Z) :=
  let* bins := resample_sum kd ka (rows_of_category kc c (lrows fr)) in
  Ok (reindex bins (map (fun '(_, r) => cell kd r) (lrows fr))).

(** [df.set_index("date")], then the income and the expense series. *)
Definition daily_series (fr : LFrame) : Result (list Value * list Z * list Z) :=
  let* kd := need_col "date" (lcolumns fr) in
  let* kc := need_col "category" (lcolumns fr) in
  let* ka := need_col "amount" (lcolumns fr) in
  let* income := category_series kd kc ka "Income" fr in
  let* expense := category_series kd kc ka "Expense" fr in
  Ok (map (fun '(_, r) => cell kd r) (lrows fr), income, expense).

(** ** Auxiliary definitions for the statements *)

(** A transaction as [add_entry] receives it, with its date already a
    calendar date. *)
Record Txn := mkTxn
  { t_date : Date; t_amount : Z; t_category : string; t_description : string }.

(** The record [add_entry] writes for a transaction whose date text is
    canonical. *)
Definition txn_record (t : Txn) : list string :=
  entry_record (fmt_date (t_date t)) (t_amount t) (t_category t) (t_description t).

(** A store file: the header, then one canonical record per transaction. *)
Definition store_file (ts : list Txn) : File := Some (COLUMNS :: map txn_record ts).

Definition nodash (s : string) : bool :=
  forallb (fun c => negb (Ascii.eqb c "-")) (list_ascii_of_string s).

(** The inclusive window [start_date <= d <= end_date]. *)
Definition in_window (s e d : Date) : bool := date_le s d && date_le d e.

(** A cell [Series.sum()] adds without error: a number, or NaN (skipped). *)
Definition numeric_cell (v : Value) : bool :=
  match v with VNum _ | VNaN => true | _ => false end.

Definition num_of (v : Value) : Z := match v with VNum z => z | _ => 0 end.

(** The spec's sum of [amount] over the rows whose category is exactly [c]
    (columns in the store's order: amount second, category third). *)
Definition category_total (c : string) (rows : list (nat * list Value)) : Z :=
  fold_right (fun '(_, r) acc =>
                if is_category c (cell 2 r) then num_of (cell 1 r) + acc else acc) 0 rows.

(** The frame [read_csv] gives for a store file ([R] its records). *)
Definition store_row (R : list (list string)) (t : Txn) : list Value :=
  [VStr (fmt_date (t_date t)); VNum (t_amount t);
   convert_cell (numeric_col R 2) (t_category t);
   convert_cell (numeric_col R 3) (t_description t)].

(** The same row after [pd.to_datetime] of its date. *)
Definition dated_row (R : list (list string)) (t : Txn) : list Value :=
  VTime (t_date t) :: tl (store_row R t).

(** The labelled rows of a store table whose date lies in the window. *)
Definition window_rows (s e : Date) (ts : list Txn) : list (nat * list Value) :=
  filter (fun '(_, r) => in_range s e (cell 0 r))
         (enumerate (map (dated_row (map txn_record ts)) ts)).

(** [add()] called once per transaction, in order: [CSV.add_entry] with the
    date in its canonical text form. *)
Fixpoint add_entries (es : list Txn) : M unit :=
  match es with
  | [] => ret tt
  | t :: es' =>
      add_entry (fmt_date (t_date t)) (t_amount t) (t_category t) (t_description t) ;;;
      add_entries es'
  end.

(** Concrete inputs used by the witnesses. *)
Definition feb1 : Date := mkDate 2024 2 1.
Definition feb15 : Date := mkDate 2024 2 15.
Definition mar1 : Date := mkDate 2024 3 1.

Definition sample_txns : list Txn :=
  [mkTxn feb1 100 "Income" "salary"; mkTxn feb15 40 "Expense" "rent";
   mkTxn feb15 25 "Income" "refund"; mkTxn mar1 5 "Expense" "coffee"].

Definition sample_appends : list Txn :=
  [mkTxn feb15 7 "Expense" "bus"; mkTxn mar1 30 "Income" "gift"].

Definition sample_rows : list (nat * list Value) :=
  [(0%nat, [VTime feb1; VNum 100; VStr "Income"; VStr "salary"]);
   (1%nat, [VTime feb15; VNum 40; VStr "Expense"; VStr "rent"]);
   (2%nat, [VTime feb15; VNum 25; VStr "Income"; VStr "refund"]);
   (3%nat, [VTime mar1; VNum 5; VStr "Expense"; VStr "coffee"]);
   (4%nat, [VTime mar1; VNum 7; VStr "Food"; VStr "lunch"])].

(** Texts that pandas' type inference may read back as something other
    than the same string: integer texts, texts made only of characters of a
    decimal or exponent number, and boolean or infinity words. *)
Definition number_char (c : ascii) : bool :=
  existsb (Ascii.eqb c) (list_ascii_of_string "0123456789+-.eE ").

Definition lower (c : ascii) : ascii :=
  let n := nat_of_ascii c in
  if (Nat.leb 65 n && Nat.leb n 90)%bool then ascii_of_nat (n + 32) else c.

Definition typed_text (s : string) : bool :=
  is_int_text s
  || forallb number_char (list_ascii_of_string s)
  || existsb (String.eqb (string_of_list_ascii (map lower (list_ascii_of_string s))))
             ["true"; "false"; "inf"; "+inf"; "-inf"; "infinity"; "+infinity"; "-infinity"].

(** The bin total of [.resample("D").sum()] for day number [x]: the amounts
    of the rows whose date falls on that day. *)
Definition day_sum (kd ka : nat) (rows : list (nat * list Value)) (x : Z) : Z :=
  fold_right (fun '(_, r) acc =>
                if match row_day kd r with Some n => n =? x | None => false end
                then num_of (cell ka r) + acc else acc) 0 rows.

(** The spec's same-day total of category [c] for the date index entry
    [v]: the amounts of the rows of category [c] dated on that day. *)
Definition day_total (c : string) (rows : list (nat * list Value)) (v : Value) : Z :=
  match v with
  | VTime d =>
      category_total c (filter (fun '(_, r) => match cell 0 r with
                                               | VTime d' => date_eqb d' d
                                               | _ => false
                                               end) rows)
  | _ => 0
  end.

(** [add()]: [CSV.initialize_csv], then [CSV.add_entry] of the values the
    prompts return ([get_date], [get_amount], [get_category] and
    [get_description] come from [data_entry], which is not part of this
    file; their results are the arguments). *)
Definition add (date : string) (amount : Z) (category description : string) : M Outcome :=
  initialize_csv ;;; add_entry date amount category description.

(** A field that [read_csv] then [to_csv] write back as it was: not a
    missing-value token, and, if read as an integer, printed back the same. *)
Definition stable_text (s : string) : bool :=
  negb (is_na s)
  && match parse_int s with Some z => String.eqb (str_int z) s | None => true end.

Definition stable_txn (t : Txn) : bool :=
  stable_text (t_category t) && stable_text (t_description t).

(** * Theorems *)

Lemma check_range (P : Z -> bool) (lo n : Z) :
  forallb P (zrange lo (Z.to_nat n)) = true -> forall v, lo <= v < lo + n -> P v = true.
Proof.
  unfold zrange. intros H v Hv. rewrite forallb_forall in H. apply H.
  apply in_map_iff. exists (Z.to_nat (v - lo)). split.
  - lia.
  - apply in_seq. lia.
Qed.

Lemma split_on_app_dash (a rest : string) :
  nodash a = true -> split_on "-" (a ++ String "-" rest) = a :: split_on "-" rest.
Proof.
  induction a as [|c a IH]; intros H; [reflexivity|].
  unfold nodash in H. simpl in H. apply andb_prop in H as [Hc Ha].
  simpl. apply negb_true_iff in Hc. rewrite Hc. rewrite (IH Ha). reflexivity.
Qed.

Lemma split_on_nodash (a : string) : nodash a = true -> split_on "-" a = [a].
Proof.
  induction a as [|c a IH]; intros H; [reflexivity|].
  unfold nodash in H. simpl in H. apply andb_prop in H as [Hc Ha].
  simpl. apply negb_true_iff in Hc. rewrite Hc. rewrite (IH Ha). reflexivity.
Qed.

Lemma two_day_ok (v : Z) : 1 <= v <= 31 -> nodash (two v) = true /\ parse_day (two v) = Some v.
Proof.
  intros Hv.
  assert (H : forallb (fun v => nodash (two v) &&
                 match parse_day (two v) with Some w => w =? v | None => false end)
                (zrange 1 (Z.to_nat 31)) = true) by (vm_compute; reflexivity).
  pose proof (check_range _ _ _ H v ltac:(lia)) as Hc.
  apply andb_prop in Hc as [H1 H2]. split; [exact H1|].
  destruct (parse_day (two v)) as [w|]; [apply Z.eqb_eq in H2; congruence|discriminate].
Qed.

Lemma two_month_ok (v : Z) : 1 <= v <= 12 -> nodash (two v) = true /\ parse_month (two v) = Some v.
Proof.
  intros Hv.
  assert (H : forallb (fun v => nodash (two v) &&
                 match parse_month (two v) with Some w => w =? v | None => false end)
                (zrange 1 (Z.to_nat 12)) = true) by (vm_compute; reflexivity).
  pose proof (check_range _ _ _ H v ltac:(lia)) as Hc.
  apply andb_prop in Hc as [H1 H2]. split; [exact H1|].
  destruct (parse_month (two v)) as [w|]; [apply Z.eqb_eq in H2; congruence|discriminate].
Qed.

Lemma four_year_ok (v : Z) : 0 <= v <= 9999 -> nodash (four v) = true /\ parse_year (four v) = Some v.
Proof.
  intros Hv.
  assert (H : forallb (fun v => nodash (four v) &&
                 match parse_year (four v) with Some w => w =? v | None => false end)
                (zrange 0 (Z.to_nat 10000)) = true) by (vm_compute; reflexivity).
  pose proof (check_range _ _ _ H v ltac:(lia)) as Hc.
  apply andb_prop in Hc as [H1 H2]. split; [exact H1|].
  destruct (parse_year (four v)) as [w|]; [apply Z.eqb_eq in H2; congruence|discriminate].
Qed.

Lemma days_in_month_le_31 (y m : Z) : days_in_month y m <= 31.
Proof.
  unfold days_in_month.
  destruct (m =? 2); [destruct (leap y); lia|].
  destruct (_ || _); [lia|]. destruct (_ && _); lia.
Qed.

Lemma valid_date_bounds (d : Date) :
  valid_date d = true ->
  1 <= year d <= 9999 /\ 1 <= month d <= 12 /\ 1 <= day d <= 31.
Proof.
  unfold valid_date. intros H. repeat rewrite andb_true_iff in H.
  destruct H as [[[[[H1 H2] H3] H4] H5] H6]. apply Z.leb_le in H1, H2, H3, H4, H5, H6.
  pose proof (days_in_month_le_31 (year d) (month d)). lia.
Qed.

(** [strptime] reads back the canonical text of every valid date. *)
Lemma strptime_fmt_date (d : Date) : valid_date d = true -> strptime (fmt_date d) = Some d.
Proof.
  intros Hv. pose proof (valid_date_bounds d Hv) as (Hy & Hm & Hd).
  destruct (two_day_ok (day d) ltac:(lia)) as [Nd Pd].
  destruct (two_month_ok (month d) ltac:(lia)) as [Nm Pm].
  destruct (four_year_ok (year d) ltac:(lia)) as [Ny Py].
  unfold strptime, fmt_date.
  cbn [append].
  rewrite (split_on_app_dash _ _ Nd), (split_on_app_dash _ _ Nm), (split_on_nodash _ Ny).
  rewrite Pd, Pm, Py. destruct d as [y m dd]. simpl in *. rewrite Hv. reflexivity.
Qed.

Lemma sum_col_category (kc ka : nat) (c : string) (rows : list (nat * list Value)) :
  Forall (fun '(_, r) => is_category c (cell kc r) = true -> numeric_cell (cell ka r) = true) rows ->
  sum_col ka (rows_of_category kc c rows)
  = Ok (fold_right (fun '(_, r) acc =>
          if is_category c (cell kc r) then num_of (cell ka r) + acc else acc) 0 rows).
Proof.
  induction rows as [|[i r] rows IH]; intros H; [reflexivity|].
  inversion H as [|? ? Hr Hrs]; subst. simpl.
  destruct (is_category c (cell kc r)) eqn:Ec.
  - simpl. rewrite (IH Hrs). simpl. specialize (Hr eq_refl).
    destruct (cell ka r); simpl in *; try discriminate; f_equal; lia.
  - exact (IH Hrs).
Qed.

Lemma summarize_eq (rows : list (nat * list Value)) :
  Forall (fun '(_, r) =>
            (is_category "Income" (cell 2 r) || is_category "Expense" (cell 2 r)) = true ->
            numeric_cell (cell 1 r) = true) rows ->
  summarize COLUMNS rows
  = Ok (category_total "Income" rows, category_total "Expense" rows,
        category_total "Income" rows - category_total "Expense" rows).
Proof.
  intros H.
  unfold summarize.
  rewrite (eq_refl : need_col "category" COLUMNS = Ok 2%nat).
  rewrite (eq_refl : need_col "amount" COLUMNS = Ok 1%nat). cbn [rbind].
  rewrite (sum_col_category 2 1 "Income").
  2:{ eapply Forall_impl; [|exact H]. intros [i r] Hr Hc. apply Hr. now rewrite Hc. }
  cbn [rbind]. rewrite (sum_col_category 2 1 "Expense").
  2:{ eapply Forall_impl; [|exact H]. intros [i r] Hr Hc. apply Hr. rewrite Hc.
      apply orb_true_r. }
  reflexivity.
Qed.


Lemma uint_of_string_dash (s1 s2 : string) :
  NilEmpty.uint_of_string (s1 ++ String "-" s2) = None.
Proof.
  induction s1 as [|c s1 IH]; simpl.
  - destruct (NilEmpty.uint_of_string s2); reflexivity.
  - rewrite IH. reflexivity.
Qed.

(** No text with a ['-'] after its first character is an integer text. *)
Lemma parse_int_dash (c : ascii) (s1 s2 : string) :
  parse_int (String c (s1 ++ String "-" s2)) = None.
Proof.
  unfold parse_int. destruct (Ascii.eqb c "+").
  - unfold NilZero.uint_of_string.
    destruct (s1 ++ String "-" s2) eqn:E; [destruct s1; discriminate|].
    rewrite <- E, uint_of_string_dash. reflexivity.
  - unfold NilZero.int_of_string. destruct (Ascii.eqb c "-").
    + unfold NilZero.uint_of_string.
      destruct (s1 ++ String "-" s2) eqn:E; [destruct s1; discriminate|].
      rewrite <- E, uint_of_string_dash. reflexivity.
    + simpl. rewrite uint_of_string_dash. reflexivity.
Qed.

Lemma is_na_length (s : string) :
  (forall tok, In tok NA_TOKENS -> String.length tok <> String.length s) -> is_na s = false.
Proof.
  intros H. unfold is_na. apply not_true_iff_false. intros Hx.
  apply existsb_exists in Hx as [tok [Hin Heq]]. apply String.eqb_eq in Heq. subst.
  exact (H _ Hin eq_refl).
Qed.

Lemma fmt_date_not_na (d : Date) : is_na (fmt_date d) = false.
Proof.
  apply is_na_length. unfold fmt_date, two, four. cbn [append String.length].
  intros tok Hin. simpl in Hin.
  repeat (destruct Hin as [<-|Hin]; [discriminate|]). contradiction.
Qed.

Lemma fmt_date_not_int (d : Date) : parse_int (fmt_date d) = None.
Proof.
  unfold fmt_date, two. cbn [append].
  exact (parse_int_dash _ (String _ EmptyString) _).
Qed.

Lemma convert_fmt_date (b : bool) (d : Date) :
  convert_cell b (fmt_date d) = VStr (fmt_date d).
Proof.
  unfold convert_cell. rewrite fmt_date_not_na, fmt_date_not_int.
  destruct b; reflexivity.
Qed.

Lemma to_int_not_nil (a : Z) : Z.to_int a <> Decimal.Pos Decimal.Nil /\ Z.to_int a <> Decimal.Neg Decimal.Nil.
Proof.
  split; intros E; pose proof (DecimalZ.of_to a) as H; rewrite E in H;
    simpl in H; subst a; discriminate E.
Qed.

Lemma string_of_int_head (d : Decimal.int) :
  exists c s, NilZero.string_of_int d = String c s /\ Ascii.eqb c "+" = false.
Proof.
  destruct d as [u|u]; [|eexists _, _; split; reflexivity].
  destruct u; eexists _, _; split; reflexivity.
Qed.

(** [str(a)] reads back as the integer [a]. *)
Lemma parse_str_int (a : Z) : parse_int (str_int a) = Some a.
Proof.
  unfold str_int.
  destruct (string_of_int_head (Z.to_int a)) as (c & s & Hs & Hc).
  destruct (to_int_not_nil a) as [H1 H2].
  pose proof (NilZero.isi (Z.to_int a) H1 H2) as Hi.
  rewrite Hs in *. unfold parse_int. rewrite Hc. rewrite Hi. simpl.
  rewrite DecimalZ.of_to. reflexivity.
Qed.

Lemma na_tokens_not_int (tok : string) : In tok NA_TOKENS -> parse_int tok = None.
Proof.
  intros Hin. simpl in Hin.
  repeat (destruct Hin as [<-|Hin]; [reflexivity|]). contradiction.
Qed.

Lemma str_int_not_na (a : Z) : is_na (str_int a) = false.
Proof.
  unfold is_na. apply not_true_iff_false. intros Hx.
  apply existsb_exists in Hx as [tok [Hin Heq]]. apply String.eqb_eq in Heq.
  pose proof (na_tokens_not_int tok Hin) as Hn. rewrite <- Heq, parse_str_int in Hn.
  discriminate.
Qed.

Lemma numeric_col_amount (ts : list Txn) : numeric_col (map txn_record ts) 1 = true.
Proof.
  unfold numeric_col. apply forallb_forall. intros r Hr.
  apply in_map_iff in Hr as [t [<- _]]. cbn [field nth txn_record entry_record].
  unfold is_int_text. rewrite parse_str_int. apply orb_true_r.
Qed.

Lemma convert_str_int (a : Z) : convert_cell true (str_int a) = VNum a.
Proof. unfold convert_cell. rewrite str_int_not_na, parse_str_int. reflexivity. Qed.


(** Reading a store file back gives its transactions' rows, in order. *)
Lemma read_store_file (ts : list Txn) :
  read_csv (store_file ts)
  = Ok (mkFrame COLUMNS (map (store_row (map txn_record ts)) ts)).
Proof.
  unfold store_file.
  rewrite (eq_refl : read_csv (Some (COLUMNS :: map txn_record ts))
    = if existsb (fun r => Nat.ltb (List.length COLUMNS) (List.length r)) (map txn_record ts)
      then Err ParserError
      else Ok (mkFrame COLUMNS (map (convert_row (List.length COLUMNS) (map txn_record ts))
                                    (map txn_record ts)))).
  replace (existsb _ _) with false.
  2:{ symmetry. apply not_true_iff_false. intros Hx.
      apply existsb_exists in Hx as [r [Hr Hl]]. apply in_map_iff in Hr as [t [<- _]].
      discriminate Hl. }
  f_equal. f_equal. rewrite map_map. apply map_ext. intros t.
  unfold convert_row, store_row. change (List.length COLUMNS) with 4%nat.
  cbn [seq map field nth txn_record entry_record].
  rewrite convert_fmt_date, numeric_col_amount, convert_str_int. reflexivity.
Qed.

Lemma to_datetime_store (R : list (list string)) (ts : list Txn) :
  Forall (fun t => valid_date (t_date t) = true) ts ->
  to_datetime_col 0 (map (store_row R) ts) = Ok (map (dated_row R) ts).
Proof.
  induction ts as [|t ts IH]; intros H; [reflexivity|].
  inversion H as [|? ? Ht Hts]; subst.
  unfold to_datetime_col in *. cbn [map map_res].
  unfold cell at 1. cbn [store_row nth to_datetime].
  unfold strptime_r. rewrite (strptime_fmt_date _ Ht). cbn [rbind].
  rewrite (IH Hts). reflexivity.
Qed.

Lemma filter_enum_fst {A} (p : A -> bool) (l : list A) (k : nat) :
  map fst (filter (fun '(_, x) => p x) (combine (seq k (List.length l)) l))
  = filter (fun i => match nth_error l (i - k) with Some x => p x | None => false end)
           (seq k (List.length l)).
Proof.
  revert k. induction l as [|x l IH]; intros k; [reflexivity|].
  cbn [List.length seq combine filter].
  rewrite Nat.sub_diag. cbn [nth_error].
  assert (E : filter (fun i => match nth_error l (i - S k) with Some x => p x | None => false end)
                     (seq (S k) (List.length l))
            = filter (fun i => match nth_error (x :: l) (i - k) with Some x => p x | None => false end)
                     (seq (S k) (List.length l))).
  { apply filter_ext_in. intros i Hi. apply in_seq in Hi.
    replace (i - k)%nat with (S (i - S k)) by lia. reflexivity. }
  destruct (p x); cbn [map fst]; rewrite (IH (S k)), E; reflexivity.
Qed.

Lemma in_enum {A} (l : list A) (k i : nat) (x : A) :
  In (i, x) (combine (seq k (List.length l)) l) -> (k <= i)%nat /\ nth_error l (i - k) = Some x.
Proof.
  revert k. induction l as [|y l IH]; intros k Hin; [contradiction|].
  cbn [List.length seq combine In] in Hin. destruct Hin as [E|Hin].
  - inversion E; subst. rewrite Nat.sub_diag. split; [lia|reflexivity].
  - destruct (IH (S k) Hin) as [Hk Hn]. split; [lia|].
    replace (i - k)%nat with (S (i - S k)) by lia. exact Hn.
Qed.

Lemma dated_rows_numeric (R : list (list string)) (rows : list (nat * list Value)) (ts : list Txn) :
  Forall (fun '(_, r) => In r (map (dated_row R) ts)) rows ->
  Forall (fun '(_, r) =>
            (is_category "Income" (cell 2 r) || is_category "Expense" (cell 2 r)) = true ->
            numeric_cell (cell 1 r) = true) rows.
Proof.
  intros H. eapply Forall_impl; [|exact H]. intros [i r] Hr _.
  apply in_map_iff in Hr as [t [<- _]]. reflexivity.
Qed.

Lemma window_rows_dated (s e : Date) (ts : list Txn) :
  Forall (fun '(_, r) => In r (map (dated_row (map txn_record ts)) ts)) (window_rows s e ts).
Proof.
  apply Forall_forall. intros [i r] Hin. unfold window_rows in Hin.
  apply filter_In in Hin as [Hin _]. unfold enumerate in Hin.
  exact (in_combine_r _ _ _ _ Hin).
Qed.

(** What [get_transactions] does on a store table with canonical bounds. *)
Lemma get_transactions_store (ts : list Txn) (s e : Date) :
  Forall (fun t => valid_date (t_date t) = true) ts ->
  valid_date s = true -> valid_date e = true ->
  exists rep, get_transactions (fmt_date s) (fmt_date e) (store_file ts)
    = Ok (mkLFrame COLUMNS (window_rows s e ts), rep, store_file ts)
    /\ (window_rows s e ts = [] -> rep = NoTransactionFound).
Proof.
  intros Hts Hs He.
  unfold get_transactions, bind, read_m, lift at 1. rewrite read_store_file.
  cbn iota beta.
  rewrite (eq_refl : need_col "date" (columns (mkFrame COLUMNS (map (store_row (map txn_record ts)) ts)))
                     = Ok 0%nat).
  cbn [lift data]. rewrite to_datetime_store by exact Hts.
  unfold strptime_r. rewrite (strptime_fmt_date _ Hs), (strptime_fmt_date _ He).
  unfold lift at 1 2 3. cbn iota beta delta [columns]. fold (window_rows s e ts).
  destruct (window_rows s e ts) as [|x xs] eqn:W.
  - exists NoTransactionFound. split; reflexivity.
  - rewrite <- W. unfold lift.
    rewrite (summarize_eq (window_rows s e ts) (dated_rows_numeric _ _ ts (window_rows_dated s e ts))).
    eexists. split; [reflexivity|]. intros Hn. congruence.
Qed.

(** The labels of the rows in the window, and the row under each label. *)
Lemma window_rows_spec (s e : Date) (ts : list Txn) :
  map fst (window_rows s e ts)
  = filter (fun i => match nth_error ts i with
                     | Some t => in_window s e (t_date t)
                     | None => false
                     end)
           (seq 0 (List.length ts))
  /\ Forall (fun '(i, r) => exists t, nth_error ts i = Some t
                              /\ r = dated_row (map txn_record ts) t) (window_rows s e ts).
Proof.
  split.
  - unfold window_rows, enumerate.
    rewrite (filter_enum_fst (fun r => in_range s e (cell 0 r))).
    rewrite length_map. apply filter_ext_in. intros i _.
    rewrite Nat.sub_0_r, nth_error_map. destruct (nth_error ts i); reflexivity.
  - apply Forall_forall. intros [i r] Hin. unfold window_rows, enumerate in Hin.
    apply filter_In in Hin as [Hin _]. apply in_enum in Hin as [_ Hn].
    rewrite Nat.sub_0_r, nth_error_map in Hn.
    destruct (nth_error ts i) as [t|]; [|discriminate].
    exists t. split; [reflexivity|]. cbn in Hn. congruence.
Qed.


Lemma date_le_trans (a b c : Date) :
  date_le a b = true -> date_le b c = true -> date_le a c = true.
Proof.
  unfold date_le.
  rewrite !orb_true_iff, !andb_true_iff, !orb_true_iff, !andb_true_iff,
    !Z.ltb_lt, !Z.eqb_eq, !Z.leb_le.
  lia.
Qed.

Lemma filter_all_false {A} (p : A -> bool) (l : list A) :
  (forall x, In x l -> p x = false) -> filter p l = [].
Proof.
  induction l as [|x l IH]; intros H; [reflexivity|]. simpl.
  rewrite (H x (or_introl eq_refl)). apply IH. intros y Hy. apply H. now right.
Qed.


Lemma read_csv_columns (f : File) (fr : Frame) : read_csv f = Ok fr -> columns fr <> [].
Proof.
  unfold read_csv. destruct f as [[|[|c hdr] recs]|]; try discriminate.
  destruct (existsb _ _); [discriminate|]. intros H. inversion H. discriminate.
Qed.

Lemma drop_reset_above {A} (l : list A) (m n : nat) :
  (n < m)%nat ->
  map snd (filter (fun '(j, _) => negb (Z.of_nat j =? Z.of_nat n))
                  (combine (seq m (List.length l)) l)) = l.
Proof.
  revert m. induction l as [|x l IH]; intros m Hm; [reflexivity|].
  cbn [List.length seq combine filter].
  replace (Z.of_nat m =? Z.of_nat n) with false by (symmetry; apply Z.eqb_neq; lia).
  cbn [negb map snd]. f_equal. apply IH. lia.
Qed.

Lemma drop_reset_gen {A} (l : list A) (m n : nat) :
  (m <= n)%nat ->
  map snd (filter (fun '(j, _) => negb (Z.of_nat j =? Z.of_nat n))
                  (combine (seq m (List.length l)) l))
  = (firstn (n - m) l ++ skipn (S (n - m)) l)%list.
Proof.
  revert m. induction l as [|x l IH]; intros m Hm.
  - destruct (n - m)%nat; reflexivity.
  - cbn [List.length seq combine filter].
    destruct (Nat.eq_dec m n) as [->|Hne].
    + rewrite Z.eqb_refl, Nat.sub_diag. cbn [negb firstn skipn app].
      apply drop_reset_above. lia.
    + replace (Z.of_nat m =? Z.of_nat n) with false by (symmetry; apply Z.eqb_neq; lia).
      replace (n - m)%nat with (S (n - S m)) by lia.
      cbn [negb map snd firstn skipn app]. f_equal. apply IH. lia.
Qed.

Lemma drop_reset_split (rows : list (list Value)) (k : nat) :
  drop_reset (Z.of_nat k) rows = (firstn k rows ++ skipn (S k) rows)%list.
Proof.
  unfold drop_reset, enumerate. rewrite (drop_reset_gen rows 0 k) by lia.
  now rewrite Nat.sub_0_r.
Qed.


(** C4, counterexample: on a readable table with no rows, index 0 is out
    of range, yet [delete_entry] reports "No data available to delete."
    rather than an invalid index. *)
Lemma delete_entry_empty_table_reports_no_data :
  read_csv (Some [COLUMNS]) = Ok (mkFrame COLUMNS [])
  /\ delete_entry 0 (Some [COLUMNS]) = Ok (NoDataToDelete, Some [COLUMNS])
  /\ NoDataToDelete <> InvalidIndexDelete.
Proof. split; [reflexivity|split; [reflexivity|discriminate]]. Qed.

(** C4, as amended: on a readable table, an index that is negative or not
    below the row count changes nothing (the file is returned as it was);
    [update_entry] reports an invalid index, and [delete_entry] reports an
    invalid index when the table has rows and "no data available" when it
    has none. *)
Theorem out_of_range_index_no_mutation (f : File) (fr : Frame) (index : Z)
    (date : string) (amount : Z) (category description : string) :
  read_csv f = Ok fr ->
  ~ (0 <= index < Z.of_nat (List.length (data fr))) ->
  update_entry index date amount category description f = Ok (InvalidIndexUpdate, f)
  /\ delete_entry index f
     = Ok (match data fr with [] => NoDataToDelete | _ :: _ => InvalidIndexDelete end, f).
Proof.
  intros Hr Hi.
  assert (Hok : index_ok index fr = false).
  { unfold index_ok. apply not_true_iff_false. intros H.
    apply andb_true_iff in H as [H1 H2]. apply Z.leb_le in H1. apply Z.ltb_lt in H2. lia. }
  split.
  - unfold update_entry, bind, read_m, lift. rewrite Hr. cbn iota beta.
    rewrite Hok. reflexivity.
  - unfold delete_entry, try_fnf, bind, read_m, lift. rewrite Hr. cbn iota beta.
    unfold frame_empty. pose proof (read_csv_columns f fr Hr) as Hc.
    destruct (columns fr); [congruence|].
    destruct (data fr); [reflexivity|]. rewrite Hok. reflexivity.
Qed.

(** C5: with no backing file, [get_transactions] and [update_entry] raise
    [FileNotFoundError] (nothing catches it), while the sibling
    [delete_entry] catches it and reports "no data". *)
Theorem missing_file_faults :
  get_transactions "01-01-2024" "31-12-2024" None = Err FileNotFoundError
  /\ update_entry 0 "01-01-2024" 100 "Income" "salary" None = Err FileNotFoundError
  /\ delete_entry 0 None = Ok (NoDataToDelete, None).
Proof. repeat split. Qed.


Lemma add_entries_some (es : list Txn) (recs : list (list string)) :
  add_entries es (Some recs) = Ok (tt, Some (recs ++ map txn_record es)%list).
Proof.
  revert recs. induction es as [|t es IH]; intros recs.
  - cbn. now rewrite app_nil_r.
  - cbn [add_entries]. unfold bind at 1, add_entry.
    rewrite IH. cbn [map]. now rewrite <- app_assoc.
Qed.

Lemma filter_all_true {A} (p : A -> bool) (l : list A) :
  (forall x, In x l -> p x = true) -> filter p l = l.
Proof.
  induction l as [|x l IH]; intros H; [reflexivity|].
  cbn. rewrite (H x (or_introl eq_refl)). f_equal. apply IH. intros y Hy. apply H. now right.
Qed.



Lemma numeric_col_false (R : list (list string)) (k : nat) (r : list string) :
  In r R -> is_na (field k r) = false -> is_int_text (field k r) = false ->
  numeric_col R k = false.
Proof.
  intros Hin Hna Hint. unfold numeric_col.
  destruct (forallb _ R) eqn:E; [|reflexivity].
  rewrite forallb_forall in E. specialize (E r Hin). rewrite Hna, Hint in E. discriminate.
Qed.

Lemma convert_text_cell (s : string) : is_na s = false -> convert_cell false s = VStr s.
Proof. intros H. unfold convert_cell. now rewrite H. Qed.



Lemma year_len_pos (y : Z) : 365 <= year_len y.
Proof. unfold year_len. destruct (leap y); lia. Qed.

Lemma days_in_month_nonneg (y m : Z) : 0 <= days_in_month y m.
Proof.
  unfold days_in_month.
  destruct (m =? 2); [destruct (leap y); lia|].
  destruct (_ || _); [lia|]. destruct (_ && _); lia.
Qed.

Lemma dbyn_mono (n n' : nat) :
  (n <= n')%nat -> days_before_year_nat n <= days_before_year_nat n'.
Proof.
  induction 1 as [|n' _ IH]; [lia|]. cbn [days_before_year_nat].
  pose proof (year_len_pos (Z.of_nat (S n'))). lia.
Qed.

Lemma dbmn_mono (y : Z) (n n' : nat) :
  (n <= n')%nat -> days_before_month_nat y n <= days_before_month_nat y n'.
Proof.
  induction 1 as [|n' _ IH]; [lia|]. cbn [days_before_month_nat].
  pose proof (days_in_month_nonneg y (Z.of_nat (S n'))). lia.
Qed.

Lemma dbmn_12 (y : Z) : days_before_month_nat y 12 = year_len y.
Proof. unfold year_len. cbn -[leap]. destruct (leap y); reflexivity. Qed.

Lemma dbyn_step (y : Z) : 1 <= y ->
  days_before_year_nat (Z.to_nat y) = days_before_year_nat (Z.to_nat (y - 1)) + year_len y.
Proof.
  intros Hy. replace (Z.to_nat y) with (S (Z.to_nat (y - 1))) by lia.
  cbn [days_before_year_nat].
  replace (Z.of_nat (S (Z.to_nat (y - 1)))) with y by lia. reflexivity.
Qed.

Lemma dbmn_step (y m : Z) : 1 <= m ->
  days_before_month_nat y (Z.to_nat m)
  = days_before_month_nat y (Z.to_nat (m - 1)) + days_in_month y m.
Proof.
  intros Hm. replace (Z.to_nat m) with (S (Z.to_nat (m - 1))) by lia.
  cbn [days_before_month_nat].
  replace (Z.of_nat (S (Z.to_nat (m - 1)))) with m by lia. reflexivity.
Qed.

Lemma valid_day_le (d : Date) : valid_date d = true -> day d <= days_in_month (year d) (month d).
Proof.
  unfold valid_date. intros H. repeat rewrite andb_true_iff in H. apply Z.leb_le. tauto.
Qed.

Lemma day_offset_bounds (d : Date) : valid_date d = true ->
  1 <= days_before_month_nat (year d) (Z.to_nat (month d - 1)) + day d <= year_len (year d).
Proof.
  intros Hv. pose proof (valid_date_bounds d Hv) as (Hy & Hm & Hd).
  pose proof (valid_day_le d Hv). pose proof (dbmn_step (year d) (month d) ltac:(lia)).
  pose proof (dbmn_mono (year d) 0 (Z.to_nat (month d - 1)) ltac:(lia)).
  pose proof (dbmn_mono (year d) (Z.to_nat (month d)) 12 ltac:(lia)).
  rewrite dbmn_12 in *. cbn [days_before_month_nat] in *. lia.
Qed.

Lemma day_number_inj (a b : Date) :
  valid_date a = true -> valid_date b = true -> day_number a = day_number b -> a = b.
Proof.
  intros Ha Hb E.
  pose proof (valid_date_bounds a Ha) as (Ya & Ma & Da).
  pose proof (valid_date_bounds b Hb) as (Yb & Mb & Db).
  pose proof (day_offset_bounds a Ha). pose proof (day_offset_bounds b Hb).
  pose proof (dbyn_step (year a) ltac:(lia)). pose proof (dbyn_step (year b) ltac:(lia)).
  unfold day_number in E.
  assert (Ey : year a = year b).
  { destruct (Z.lt_trichotomy (year a) (year b)) as [L|[L|L]]; [|exact L|].
    - pose proof (dbyn_mono (Z.to_nat (year a)) (Z.to_nat (year b - 1)) ltac:(lia)). lia.
    - pose proof (dbyn_mono (Z.to_nat (year b)) (Z.to_nat (year a - 1)) ltac:(lia)). lia. }
  rewrite Ey in *.
  pose proof (valid_day_le a Ha). pose proof (valid_day_le b Hb). rewrite Ey in *.
  pose proof (dbmn_step (year b) (month a) ltac:(lia)).
  pose proof (dbmn_step (year b) (month b) ltac:(lia)).
  assert (Em : month a = month b).
  { destruct (Z.lt_trichotomy (month a) (month b)) as [L|[L|L]]; [|exact L|].
    - pose proof (dbmn_mono (year b) (Z.to_nat (month a)) (Z.to_nat (month b - 1)) ltac:(lia)).
      lia.
    - pose proof (dbmn_mono (year b) (Z.to_nat (month b)) (Z.to_nat (month a - 1)) ltac:(lia)).
      lia. }
  rewrite Em in *. destruct a as [ya ma da], b as [yb mb db]. cbn in *. subst.
  f_equal. lia.
Qed.

Lemma day_number_eqb (a b : Date) :
  valid_date a = true -> valid_date b = true -> (day_number a =? day_number b) = date_eqb a b.
Proof.
  intros Ha Hb. destruct (date_eqb a b) eqn:E.
  - unfold date_eqb in E. rewrite !andb_true_iff, !Z.eqb_eq in E.
    destruct a, b; cbn in *. destruct E as [[-> ->] ->]. apply Z.eqb_refl.
  - apply Z.eqb_neq. intros N. apply (day_number_inj a b Ha Hb) in N. subst.
    unfold date_eqb in E. now rewrite !Z.eqb_refl in E.
Qed.

Lemma fold_min_bound (ns : list Z) (a : Z) :
  fold_left Z.min ns a <= a /\ forall z, In z ns -> fold_left Z.min ns a <= z.
Proof.
  revert a. induction ns as [|n ns IH]; intros a; cbn [fold_left In]; [split; [lia|tauto]|].
  destruct (IH (Z.min a n)) as [H1 H2]. split; [lia|].
  intros z [<-|Hz]; [lia|auto].
Qed.

Lemma fold_max_bound (ns : list Z) (a : Z) :
  a <= fold_left Z.max ns a /\ forall z, In z ns -> z <= fold_left Z.max ns a.
Proof.
  revert a. induction ns as [|n ns IH]; intros a; cbn [fold_left In]; [split; [lia|tauto]|].
  destruct (IH (Z.max a n)) as [H1 H2]. split; [lia|].
  intros z [<-|Hz]; [lia|auto].
Qed.

Lemma lookup_bin_map (F : Z -> Z) (x : Z) (l : list Z) :
  lookup_bin x (map (fun k => (k, F k)) l) = if existsb (Z.eqb x) l then Some (F x) else None.
Proof.
  induction l as [|k l IH]; [reflexivity|]. cbn [map lookup_bin existsb].
  rewrite IH. destruct (Z.eqb_spec k x) as [->|N]; [now rewrite Z.eqb_refl|].
  rewrite (proj2 (Z.eqb_neq x k)) by congruence. reflexivity.
Qed.

Lemma existsb_zrange (x lo : Z) (n : nat) :
  existsb (Z.eqb x) (zrange lo n) = ((lo <=? x) && (x <? lo + Z.of_nat n)).
Proof.
  destruct (existsb _ _) eqn:E; symmetry.
  - apply existsb_exists in E as [k [Hk Ek]]. apply Z.eqb_eq in Ek. subst.
    unfold zrange in Hk. apply in_map_iff in Hk as [j [<- Hj]]. apply in_seq in Hj.
    apply andb_true_iff; split; [apply Z.leb_le|apply Z.ltb_lt]; lia.
  - apply not_true_iff_false. intros H. apply andb_true_iff in H as [H1 H2].
    apply Z.leb_le in H1. apply Z.ltb_lt in H2.
    apply not_true_iff_false in E. apply E. apply existsb_exists.
    exists x. split; [|apply Z.eqb_refl]. unfold zrange. apply in_map_iff.
    exists (Z.to_nat (x - lo)). split; [lia|]. apply in_seq. lia.
Qed.

Lemma map_res_ok {A B} (g : A -> Result B) (h : A -> B) (l : list A) :
  (forall x, In x l -> g x = Ok (h x)) -> map_res g l = Ok (map h l).
Proof.
  induction l as [|x l IH]; intros H; [reflexivity|].
  cbn [map_res map]. rewrite (H x (or_introl eq_refl)). cbn [rbind].
  rewrite IH; [reflexivity|]. intros y Hy. apply H. now right.
Qed.

Lemma sum_col_filter (ka : nat) (p : list Value -> bool) (rows : list (nat * list Value)) :
  Forall (fun '(_, r) => numeric_cell (cell ka r) = true) rows ->
  sum_col ka (filter (fun '(_, r) => p r) rows)
  = Ok (fold_right (fun '(_, r) acc => if p r then num_of (cell ka r) + acc else acc) 0 rows).
Proof.
  induction rows as [|[i r] rows IH]; intros H; [reflexivity|].
  inversion H as [|? ? Hr Hrs]; subst. cbn [filter fold_right].
  destruct (p r) eqn:Ep.
  - cbn [sum_col]. rewrite (IH Hrs). cbn [rbind].
    destruct (cell ka r); cbn in Hr; try discriminate; f_equal; cbn; lia.
  - exact (IH Hrs).
Qed.

Lemma day_sum_zero (kd ka : nat) (rows : list (nat * list Value)) (x : Z) :
  (forall i r, In (i, r) rows -> row_day kd r <> Some x) -> day_sum kd ka rows x = 0.
Proof.
  unfold day_sum. induction rows as [|[i r] rows IH]; intros H; [reflexivity|].
  cbn [fold_right]. rewrite IH by (intros j r' Hj; apply (H j r'); now right).
  destruct (row_day kd r) as [n|] eqn:E; [|reflexivity].
  destruct (Z.eqb_spec n x) as [->|_]; [|reflexivity].
  exfalso. apply (H i r (or_introl eq_refl)). exact E.
Qed.

Lemma in_row_days (kd : nat) (rows : list (nat * list Value)) (i : nat) (r : list Value) (x : Z) :
  In (i, r) rows -> row_day kd r = Some x ->
  In x (flat_map (fun '(_, r) => match row_day kd r with Some n => [n] | None => [] end) rows).
Proof.
  intros Hin E. apply in_flat_map. exists (i, r). split; [exact Hin|]. rewrite E. now left.
Qed.

(** The bins of [resample_sum], looked up with the fill value [0] of
    [reindex], give each day's total. *)
Lemma resample_sum_lookup (rows : list (nat * list Value)) :
  Forall (fun '(_, r) => numeric_cell (cell 1 r) = true) rows ->
  exists bins, resample_sum 0 1 rows = Ok bins
    /\ forall x, match lookup_bin x bins with Some s => s | None => 0 end = day_sum 0 1 rows x.
Proof.
  intros Hn. unfold resample_sum.
  destruct (flat_map _ rows) as [|n ns] eqn:Eds.
  - exists []. split; [reflexivity|]. intros x. cbn [lookup_bin].
    symmetry. apply day_sum_zero. intros i r Hin E.
    pose proof (in_row_days 0 rows i r x Hin E) as Hx. rewrite Eds in Hx. contradiction.
  - set (lo := fold_left Z.min ns n). set (hi := fold_left Z.max ns n).
    exists (map (fun k => (k, day_sum 0 1 rows k)) (zrange lo (Z.to_nat (hi - lo + 1)))).
    split.
    + apply map_res_ok. intros k _.
      pose proof (sum_col_filter 1
                    (fun r => match row_day 0 r with Some n => n =? k | None => false end)
                    rows Hn) as E.
      cbn beta in E. rewrite E. reflexivity.
    + intros x. rewrite lookup_bin_map, existsb_zrange.
      destruct (_ && _) eqn:R; [reflexivity|].
      symmetry. apply day_sum_zero. intros i r Hin E.
      pose proof (in_row_days 0 rows i r x Hin E) as Hx. rewrite Eds in Hx.
      destruct (fold_min_bound ns n) as [L1 L2]. destruct (fold_max_bound ns n) as [U1 U2].
      assert (lo <= x <= hi) by (destruct Hx as [<-|Hx]; [|specialize (L2 x Hx); specialize (U2 x Hx)];
                                 unfold lo, hi; lia).
      assert (lo <= hi) by (unfold lo, hi; lia).
      apply andb_false_iff in R as [R|R]; [apply Z.leb_gt in R|apply Z.ltb_ge in R]; lia.
Qed.

Lemma forall_filter {A} (P : A -> Prop) (f : A -> bool) (l : list A) :
  Forall P l -> Forall P (filter f l).
Proof.
  rewrite !Forall_forall. intros H x Hx. apply filter_In in Hx as [Hx _]. auto.
Qed.

Lemma day_sum_category (c : string) (rows : list (nat * list Value)) (d : Date) :
  Forall (fun '(_, r) => exists d', cell 0 r = VTime d' /\ valid_date d' = true) rows ->
  valid_date d = true ->
  day_sum 0 1 (rows_of_category 2 c rows) (day_number d) = day_total c rows (VTime d).
Proof.
  intros H Hd. unfold day_total, day_sum, category_total, rows_of_category.
  induction rows as [|[i r] rows IH]; [reflexivity|].
  inversion H as [|? ? Hx Hrs]; subst. cbn beta iota in Hx. destruct Hx as [dr [Er Hr]].
  assert (Rr : row_day 0 r = Some (day_number dr)) by (unfold row_day; now rewrite Er).
  cbn [filter]. rewrite Er.
  destruct (is_category c (cell 2 r)) eqn:Ec; destruct (date_eqb dr d) eqn:Eq;
    cbn [fold_right]; cbn beta iota; rewrite ?Rr, ?Ec, ?(day_number_eqb dr d Hr Hd), ?Eq;
    rewrite (IH Hrs); reflexivity.
Qed.

Lemma category_series_day_total (c : string) (cols : list string) (rows : list (nat * list Value)) :
  Forall (fun '(_, r) => (exists d, cell 0 r = VTime d /\ valid_date d = true)
                         /\ numeric_cell (cell 1 r) = true) rows ->
  category_series 0 2 1 c (mkLFrame cols rows)
  = Ok (map (fun '(_, r) => day_total c rows (cell 0 r)) rows).
Proof.
  intros H.
  destruct (resample_sum_lookup (rows_of_category 2 c rows)) as [bins [Hb Hl]].
  { apply forall_filter. eapply Forall_impl; [|exact H]. intros [i r] [_ Hr]. exact Hr. }
  unfold category_series. cbn [lrows]. rewrite Hb. cbn [rbind]. f_equal.
  unfold reindex. rewrite map_map. apply map_ext_in. intros [i r] Hin.
  rewrite Forall_forall in H. destruct (H (i, r) Hin) as [[d [Ed Hd]] _]. rewrite Ed.
  rewrite Hl. apply day_sum_category; [|exact Hd].
  apply Forall_forall. intros [j r'] Hj. exact (proj1 (H (j, r') Hj)).
Qed.



(** ** Further properties of the store operations *)

Lemma render_convert_stable (b : bool) (s : string) :
  stable_text s = true -> render (convert_cell b s) = s.
Proof.
  unfold stable_text, convert_cell. intros H. apply andb_true_iff in H as [Hn Hp].
  destruct (is_na s); [discriminate|].
  destruct b; [|reflexivity].
  destruct (parse_int s) as [z|]; [|reflexivity]. cbn [render]. now apply String.eqb_eq.
Qed.

Lemma render_store_row (R : list (list string)) (t : Txn) :
  stable_txn t = true -> map render (store_row R t) = txn_record t.
Proof.
  unfold stable_txn. intros H. apply andb_true_iff in H as [Hc Hd].
  unfold store_row. cbn [map render].
  rewrite (render_convert_stable _ _ Hc), (render_convert_stable _ _ Hd). reflexivity.
Qed.

Lemma render_store_rows (R : list (list string)) (ts : list Txn) :
  Forall (fun t => stable_txn t = true) ts ->
  map (map render) (map (store_row R) ts) = map txn_record ts.
Proof.
  intros H. rewrite map_map. apply map_ext_in. intros t Ht.
  apply render_store_row. rewrite Forall_forall in H. auto.
Qed.

Lemma in_firstn_skipn {A} (n : nat) (l : list A) (x : A) :
  In x (firstn n l ++ skipn (S n) l)%list -> In x l.
Proof.
  intros H. apply in_app_or in H as [H|H].
  - rewrite <- (firstn_skipn n l). apply in_or_app. now left.
  - rewrite <- (firstn_skipn (S n) l). apply in_or_app. now right.
Qed.

Lemma delete_store_file (ts : list Txn) (i : nat) :
  (i < List.length ts)%nat ->
  Forall (fun t => stable_txn t = true) (firstn i ts ++ skipn (S i) ts)%list ->
  delete_entry (Z.of_nat i) (store_file ts)
  = Ok (EntryDeleted, store_file (firstn i ts ++ skipn (S i) ts)%list).
Proof.
  intros Hi Hs. unfold delete_entry, try_fnf, bind, read_m, lift.
  rewrite read_store_file.
  assert (Hne : frame_empty (mkFrame COLUMNS (map (store_row (map txn_record ts)) ts)) = false).
  { unfold frame_empty. cbn [columns data]. destruct ts; [cbn in Hi; lia|reflexivity]. }
  assert (Hok : index_ok (Z.of_nat i)
                  (mkFrame COLUMNS (map (store_row (map txn_record ts)) ts)) = true).
  { unfold index_ok. cbn [data]. rewrite length_map.
    apply andb_true_iff. split; [apply Z.leb_le|apply Z.ltb_lt]; lia. }
  cbn beta iota. rewrite Hne.
  rewrite Hok. cbn [columns data]. unfold write_csv, ret.
  rewrite drop_reset_split, firstn_map, skipn_map, <- map_app.
  unfold to_csv. cbn [columns data]. rewrite render_store_rows by exact Hs. reflexivity.
Qed.

Lemma set_at_columns (i k : nat) (name : string) (v : Value) (D : list (list Value)) :
  col_index name COLUMNS = Some k ->
  set_at i name v (mkFrame COLUMNS D) = mkFrame COLUMNS (update_nth i (update_nth k (fun _ => v)) D).
Proof. intros H. unfold set_at. cbn [columns data]. now rewrite H. Qed.

Lemma update_nth_twice {A} (i : nat) (f g : A -> A) (l : list A) :
  update_nth i f (update_nth i g l) = update_nth i (fun x => f (g x)) l.
Proof.
  revert i. induction l as [|x l IH]; intros [|i]; cbn; [reflexivity..|reflexivity|].
  now rewrite IH.
Qed.

Lemma map_update_nth {A B} (g : A -> B) (F : A -> A) (G : B -> B) (i : nat) (l : list A) :
  (forall x, In x l -> g (F x) = G (g x)) ->
  map g (update_nth i F l) = update_nth i G (map g l).
Proof.
  revert i. induction l as [|x l IH]; intros [|i] H; cbn; [reflexivity|reflexivity| |].
  - now rewrite (H x (or_introl eq_refl)).
  - rewrite IH; [reflexivity|]. intros y Hy. apply H. now right.
Qed.

Lemma update_store_file_gen (ts : list Txn) (i : nat) (date : string) (amount : Z)
    (category description : string) :
  (i < List.length ts)%nat ->
  update_entry (Z.of_nat i) date amount category description (store_file ts)
  = Ok (EntryUpdated,
        Some (COLUMNS :: update_nth i (fun _ => entry_record date amount category description)
                                    (map (map render) (map (store_row (map txn_record ts)) ts)))).
Proof.
  intros Hi. unfold update_entry, bind, read_m, lift.
  rewrite read_store_file.
  assert (Hok : index_ok (Z.of_nat i)
                  (mkFrame COLUMNS (map (store_row (map txn_record ts)) ts)) = true).
  { unfold index_ok. cbn [data]. rewrite length_map.
    apply andb_true_iff. split; [apply Z.leb_le|apply Z.ltb_lt]; lia. }
  rewrite Hok. rewrite Nat2Z.id.
  rewrite (set_at_columns i 0 "date"), (set_at_columns i 1 "amount"),
    (set_at_columns i 2 "category"), (set_at_columns i 3 "description") by reflexivity.
  rewrite !update_nth_twice. unfold write_csv, ret, to_csv. cbn [columns data].
  rewrite (map_update_nth (map render) _ (fun _ => entry_record date amount category description)).
  - reflexivity.
  - intros x Hx. apply in_map_iff in Hx as [t [<- _]]. reflexivity.
Qed.

Lemma update_store_file (ts : list Txn) (i : nat) (date : string) (amount : Z)
    (category description : string) :
  (i < List.length ts)%nat -> Forall (fun t => stable_txn t = true) ts ->
  update_entry (Z.of_nat i) date amount category description (store_file ts)
  = Ok (EntryUpdated,
        Some (COLUMNS :: update_nth i (fun _ => entry_record date amount category description)
                                    (map txn_record ts))).
Proof.
  intros Hi Hs. rewrite (update_store_file_gen ts i date amount category description Hi).
  now rewrite render_store_rows by exact Hs.
Qed.




Lemma str_int_not_date (amount : Z) : str_int amount <> "date".
Proof.
  intros E. pose proof (parse_str_int amount) as P. rewrite E in P. discriminate P.
Qed.

Lemma initialize_store_file (ts : list Txn) : initialize_csv (store_file ts) = Ok (tt, store_file ts).
Proof.
  unfold initialize_csv, try_fnf, bind, read_m, lift. rewrite read_store_file. reflexivity.
Qed.

(** X4: [add_entry] on a missing file creates it with the new record alone
    and no header line, so pandas takes that record as the header: the file
    reads as a table with no rows, [delete_entry] reports that there is no
    data, [update_entry] reports an invalid index for every index, and
    [get_transactions] fails with [KeyError] (no column is named "date",
    unless one of the given texts is "date"). *)
Theorem add_entry_missing_file_headerless (date : string) (amount : Z)
    (category description : string) (index : Z) (date' : string) (amount' : Z)
    (category' description' start_date end_date : string) :
  add_entry date amount category description None
  = Ok (EntryAdded, Some [entry_record date amount category description])
  /\ read_csv (Some [entry_record date amount category description])
     = Ok (mkFrame (entry_record date amount category description) [])
  /\ delete_entry index (Some [entry_record date amount category description])
     = Ok (NoDataToDelete, Some [entry_record date amount category description])
  /\ update_entry index date' amount' category' description'
                  (Some [entry_record date amount category description])
     = Ok (InvalidIndexUpdate, Some [entry_record date amount category description])
  /\ (date <> "date" -> category <> "date" -> description <> "date" ->
      get_transactions start_date end_date (Some [entry_record date amount category description])
      = Err KeyError).
Proof.
  assert (Hr : read_csv (Some [entry_record date amount category description])
               = Ok (mkFrame (entry_record date amount category description) [])) by reflexivity.
  split; [reflexivity|]. split; [exact Hr|]. split; [reflexivity|].
  split.
  - unfold update_entry, bind, read_m, lift. rewrite Hr. cbn beta iota.
    unfold index_ok. cbn [data List.length].
    destruct (0 <=? index) eqn:E1, (index <? Z.of_nat 0) eqn:E2; try reflexivity.
    apply Z.leb_le in E1. apply Z.ltb_lt in E2. lia.
  - intros Hd Hc Hs. unfold get_transactions, bind, read_m, lift.
    rewrite Hr. cbn beta iota. cbn [columns].
    unfold need_col, entry_record. cbn [col_index].
    rewrite (proj2 (String.eqb_neq _ _) Hd), (proj2 (String.eqb_neq _ _) (str_int_not_date amount)),
      (proj2 (String.eqb_neq _ _) Hc), (proj2 (String.eqb_neq _ _) Hs).
    reflexivity.
Qed.

(** X5: [add()] initializes, then appends: on a store table it appends the
    transaction as one canonical record; on a missing file it creates the
    header first, so the result is the store table of that transaction
    alone. *)
Theorem add_store_file (ts : list Txn) (t : Txn) :
  add (fmt_date (t_date t)) (t_amount t) (t_category t) (t_description t) (store_file ts)
  = Ok (EntryAdded, store_file (ts ++ [t])%list)
  /\ add (fmt_date (t_date t)) (t_amount t) (t_category t) (t_description t) None
     = Ok (EntryAdded, store_file [t]).
Proof.
  split.
  - unfold add, bind at 1. rewrite initialize_store_file.
    unfold add_entry, store_file. rewrite map_app. reflexivity.
  - reflexivity.
Qed.


Lemma get_transactions_inv (start_date end_date : string) (f : File) (lf : LFrame)
    (rep : Report) (f' : File) :
  get_transactions start_date end_date f = Ok (lf, rep, f') ->
  f' = f /\
  exists fr kd rows sd ed,
    read_csv f = Ok fr /\ col_index "date" (columns fr) = Some kd
    /\ to_datetime_col kd (data fr) = Ok rows
    /\ strptime start_date = Some sd /\ strptime end_date = Some ed
    /\ lf = mkLFrame (columns fr) (filter (fun '(_, r) => in_range sd ed (cell kd r)) (enumerate rows))
    /\ ((lrows lf = [] /\ rep = NoTransactionFound)
        \/ (lrows lf <> [] /\ exists inc exp net,
              summarize (columns fr) (lrows lf) = Ok (inc, exp, net) /\ rep = Summary inc exp net)).
Proof.
  unfold get_transactions, bind, read_m, lift.
  destruct (read_csv f) as [fr|e] eqn:Hr; [|discriminate]. cbn beta iota.
  unfold need_col. destruct (col_index "date" (columns fr)) as [kd|] eqn:Hk; [|discriminate].
  cbn beta iota.
  destruct (to_datetime_col kd (data fr)) as [rows|e] eqn:Ht; [|discriminate]. cbn beta iota.
  unfold strptime_r. destruct (strptime start_date) as [sd|] eqn:Hs; [|discriminate].
  cbn beta iota. destruct (strptime end_date) as [ed|] eqn:He; [|discriminate]. cbn beta iota.
  destruct (filter (fun '(_, r) => in_range sd ed (cell kd r)) (enumerate rows)) as [|x xs] eqn:Hf.
  - unfold ret. intros H. inversion H; subst. split; [reflexivity|].
    exists fr, kd, rows, sd, ed. rewrite Hf. repeat split; try assumption. now left.
  - destruct (summarize (columns fr) (x :: xs)) as [[[inc exp] net]|e] eqn:Hsum; [|discriminate].
    cbn beta iota. unfold ret. intros H. inversion H; subst. split; [reflexivity|].
    exists fr, kd, rows, sd, ed. rewrite Hf. repeat split; try assumption.
    right. split; [discriminate|]. exists inc, exp, net. split; [exact Hsum|reflexivity].
Qed.

Lemma to_datetime_col_inv (k : nat) (rows0 rows : list (list Value)) :
  to_datetime_col k rows0 = Ok rows ->
  Forall2 (fun r0 r => exists v, to_datetime (cell k r0) = Ok v
                                 /\ r = update_nth k (fun _ => v) r0) rows0 rows.
Proof.
  unfold to_datetime_col. revert rows. induction rows0 as [|r0 rows0 IH]; intros rows H.
  - inversion H. constructor.
  - cbn [map_res] in H. destruct (to_datetime (cell k r0)) as [v|e] eqn:Ev; [|discriminate].
    cbn [rbind] in H. destruct (map_res _ rows0) as [ys|e] eqn:Ey; [|discriminate].
    cbn [rbind] in H. inversion H; subst.
    constructor; [exists v; split; [exact Ev|reflexivity]|apply IH; reflexivity].
Qed.

Lemma forall2_nth_error {A B} (R : A -> B -> Prop) (l1 : list A) (l2 : list B) (i : nat) (y : B) :
  Forall2 R l1 l2 -> nth_error l2 i = Some y -> exists x, nth_error l1 i = Some x /\ R x y.
Proof.
  intros H. revert i. induction H as [|x y' l1 l2 Hxy _ IH]; intros i Hi;
    [destruct i; discriminate|].
  destruct i as [|i]; cbn in Hi |- *; [inversion Hi; subst; eauto|eauto].
Qed.

Lemma cell_update_nth (k : nat) (v : Value) (r : list Value) :
  cell k (update_nth k (fun _ => v) r) = if Nat.ltb k (List.length r) then v else VNaN.
Proof.
  unfold cell. revert k. induction r as [|x r IH]; intros [|k]; try reflexivity.
  cbn [update_nth nth List.length]. rewrite IH. reflexivity.
Qed.

Lemma read_csv_no_time (f : File) (fr : Frame) (r : list Value) (k : nat) (d : Date) :
  read_csv f = Ok fr -> In r (data fr) -> cell k r <> VTime d.
Proof.
  unfold read_csv. destruct f as [[|[|c hdr] recs]|]; try discriminate.
  destruct (existsb _ _); [discriminate|]. intros H. inversion H; subst. clear H.
  cbn [data]. intros Hin. apply in_map_iff in Hin as [rec [<- _]].
  unfold cell, convert_row.
  match goal with
  | |- nth _ (map ?g ?ks) _ <> _ => destruct (Nat.lt_ge_cases k (List.length (map g ks))) as [L|L]
  end.
  - pose proof (nth_In _ VNaN L) as Hn. apply in_map_iff in Hn as [j [Ej _]].
    rewrite <- Ej. unfold convert_cell.
    destruct (is_na _); [discriminate|]. destruct (numeric_col recs j); [|discriminate].
    destruct (parse_int _); discriminate.
  - rewrite nth_overflow by exact L. discriminate.
Qed.


Lemma map_res_err {A B} (g : A -> Result B) (l : list A) (x : A) (e0 : Fault) :
  In x l -> g x = Err e0 -> exists e, map_res g l = Err e.
Proof.
  induction l as [|y l IH]; intros Hin Hg; [contradiction|].
  cbn [map_res]. destruct (g y) as [v|e] eqn:Ey; cbn [rbind]; [|eauto].
  destruct Hin as [->|Hin]; [congruence|].
  destruct (IH Hin Hg) as [e He]. rewrite He. cbn [rbind]. eauto.
Qed.

Lemma map_res_err_inv {A B} (g : A -> Result B) (l : list A) (e : Fault) :
  map_res g l = Err e -> exists x, In x l /\ g x = Err e.
Proof.
  induction l as [|y l IH]; intros H; [discriminate|].
  cbn [map_res] in H. destruct (g y) as [v|e'] eqn:Ey; cbn [rbind] in H.
  - destruct (map_res g l) as [vs|e''] eqn:El; cbn [rbind] in H; [discriminate|].
    inversion H; subst. destruct (IH eq_refl) as [x [Hx Hg]]. exists x. split; [now right|exact Hg].
  - inversion H; subst. exists y. split; [now left|exact Ey].
Qed.

Lemma to_datetime_col_err (k : nat) (rows : list (list Value)) (e : Fault) :
  to_datetime_col k rows = Err e -> e = ValueError.
Proof.
  unfold to_datetime_col. intros H. apply map_res_err_inv in H as [r [_ Hr]].
  destruct (to_datetime (cell k r)) as [v|e'] eqn:Ev; cbn [rbind] in Hr; [discriminate|].
  inversion Hr; subst. destruct (cell k r) as [s|z| |d]; cbn in Ev; try discriminate.
  - unfold strptime_r in Ev. destruct (strptime s); cbn in Ev; congruence.
  - congruence.
Qed.

Lemma bad_date_value_error (start_date end_date : string) (f : File) (fr : Frame) (kd : nat)
    (r : list Value) (s : string) :
  read_csv f = Ok fr -> col_index "date" (columns fr) = Some kd ->
  In r (data fr) -> cell kd r = VStr s -> strptime s = None ->
  get_transactions start_date end_date f = Err ValueError.
Proof.
  intros Hr Hk Hin Hc Hs. unfold get_transactions, bind, read_m, lift.
  rewrite Hr. cbn beta iota. unfold need_col. rewrite Hk. cbn beta iota.
  destruct (to_datetime_col kd (data fr)) as [rows|e] eqn:Ht.
  - exfalso. unfold to_datetime_col in Ht.
    destruct (map_res_err (fun r => let* v := to_datetime (cell kd r) in
                                    Ok (update_nth kd (fun _ => v) r))
                          (data fr) r ValueError Hin) as [e He];
      [rewrite Hc; cbn; unfold strptime_r; now rewrite Hs|].
    congruence.
  - cbn beta iota. now rewrite (to_datetime_col_err _ _ _ Ht).
Qed.


Lemma sum_col_ok_numeric (kc ka : nat) (c : string) (rows : list (nat * list Value)) (z : Z) :
  sum_col ka (rows_of_category kc c rows) = Ok z ->
  Forall (fun '(_, r) => is_category c (cell kc r) = true -> numeric_cell (cell ka r) = true) rows.
Proof.
  unfold rows_of_category. revert z.
  induction rows as [|[i r] rows IH]; intros z H; [constructor|].
  cbn [filter] in H. destruct (is_category c (cell kc r)) eqn:Ec.
  - cbn [sum_col] in H. destruct (sum_col ka (filter _ rows)) as [s|e] eqn:Es;
      cbn [rbind] in H; [|discriminate].
    constructor; [|exact (IH s eq_refl)].
    intros _. destruct (cell ka r); try discriminate; reflexivity.
  - constructor; [intros X; congruence|exact (IH z H)].
Qed.

Lemma summarize_ok_numeric (rows : list (nat * list Value)) (t : Z * Z * Z) :
  summarize COLUMNS rows = Ok t ->
  Forall (fun '(_, r) =>
            (is_category "Income" (cell 2 r) || is_category "Expense" (cell 2 r)) = true ->
            numeric_cell (cell 1 r) = true) rows.
Proof.
  unfold summarize.
  rewrite (eq_refl : need_col "category" COLUMNS = Ok 2%nat),
          (eq_refl : need_col "amount" COLUMNS = Ok 1%nat).
  cbn [rbind].
  destruct (sum_col 1 (rows_of_category 2 "Income" rows)) as [a|e] eqn:E1; [|discriminate].
  cbn [rbind].
  destruct (sum_col 1 (rows_of_category 2 "Expense" rows)) as [b|e] eqn:E2; [|discriminate].
  intros _. apply sum_col_ok_numeric in E1, E2. rewrite Forall_forall in E1, E2 |- *.
  intros [i r] Hin Hc. apply orb_true_iff in Hc as [Hc|Hc].
  - exact (E1 (i, r) Hin Hc).
  - exact (E2 (i, r) Hin Hc).
Qed.


Lemma read_canonical (recs : list (list string)) :
  Forall (fun r => List.length r = 4%nat) recs ->
  read_csv (Some (COLUMNS :: recs)) = Ok (mkFrame COLUMNS (map (convert_row 4 recs) recs)).
Proof.
  intros H.
  rewrite (eq_refl : read_csv (Some (COLUMNS :: recs))
    = if existsb (fun r => Nat.ltb (List.length COLUMNS) (List.length r)) recs
      then Err ParserError
      else Ok (mkFrame COLUMNS (map (convert_row (List.length COLUMNS) recs) recs))).
  replace (existsb _ _) with false; [reflexivity|].
  symmetry. apply not_true_iff_false. intros Hx.
  apply existsb_exists in Hx as [r [Hr Hl]].
  rewrite Forall_forall in H. rewrite (H r Hr) in Hl. discriminate.
Qed.

Lemma canonical_bad_date (recs : list (list string)) (rec : list string)
    (start_date end_date : string) :
  Forall (fun r => List.length r = 4%nat) recs -> In rec recs ->
  is_na (field 0 rec) = false -> parse_int (field 0 rec) = None ->
  strptime (field 0 rec) = None ->
  get_transactions start_date end_date (Some (COLUMNS :: recs)) = Err ValueError.
Proof.
  intros Hl Hin Hna Hpi Hs.
  apply (bad_date_value_error start_date end_date _ (mkFrame COLUMNS (map (convert_row 4 recs) recs))
           0 (convert_row 4 recs rec) (field 0 rec)).
  - exact (read_canonical recs Hl).
  - reflexivity.
  - cbn [data]. exact (in_map _ _ _ Hin).
  - unfold convert_row, cell. cbn [seq map nth]. unfold convert_cell. rewrite Hna.
    destruct (numeric_col recs 0); [rewrite Hpi|]; reflexivity.
  - exact Hs.
Qed.

Lemma in_update_nth_inv {A} (n : nat) (g : A -> A) (l : list A) (x : A) :
  In x (update_nth n g l) -> In x l \/ exists y, x = g y.
Proof.
  revert n; induction l as [|y l IH]; intros n H; [destruct n; cbn in H; contradiction|].
  destruct n as [|n]; cbn [update_nth In] in H.
  - destruct H as [<-|H]; [right; eauto|left; now right].
  - destruct H as [<-|H]; [left; now left|].
    destruct (IH n H) as [H'|H']; [left; now right|now right].
Qed.

Lemma in_update_nth {A} (n : nat) (g : A -> A) (l : list A) :
  (n < List.length l)%nat -> exists y, In (g y) (update_nth n g l).
Proof.
  revert n; induction l as [|y l IH]; intros n H; cbn [List.length] in H; [lia|].
  destruct n as [|n]; cbn [update_nth In].
  - exists y. now left.
  - destruct (IH n ltac:(lia)) as [z Hz]. exists z. now right.
Qed.



(** ** Witnesses *)




Lemma out_of_range_index_no_mutation_witness :
  update_entry 4 "01-01-2024" 1 "Income" "x" (store_file sample_txns)
  = Ok (InvalidIndexUpdate, store_file sample_txns)
  /\ delete_entry 4 (store_file sample_txns)
     = Ok (InvalidIndexDelete, store_file sample_txns).
Proof.
  apply (out_of_range_index_no_mutation (store_file sample_txns)
           (mkFrame COLUMNS (map (store_row (map txn_record sample_txns)) sample_txns)) 4).
  - vm_compute. reflexivity.
  - cbn. lia.
Defined.








Lemma add_entry_missing_file_headerless_witness :
  get_transactions "01-01-2024" "31-12-2024" (Some [entry_record "01-02-2024" 100 "Income" "salary"])
  = Err KeyError.
Proof.
  destruct (add_entry_missing_file_headerless "01-02-2024" 100 "Income" "salary" 0
              "02-02-2024" 5 "Expense" "tea" "01-01-2024" "31-12-2024") as (_ & _ & _ & _ & H).
  apply H; discriminate.
Defined.






